(** * The external-authorization HTTP filter factory

    A shallow embedding of
    [source/extensions/filters/http/ext_authz/config.cc]:
    [ExtAuthzFilterConfig::createFilterFactoryFromProtoTyped], the three
    callbacks it returns, and
    [ExtAuthzFilterConfig::createRouteSpecificFilterConfigTyped].

    The C++ code allocates objects, consults a process-wide client cache
    and may throw.  All of this is threaded through one state-and-exception
    monad [M] over a [World] that holds the allocator, the cache
    singleton's map and a trace of the calls made on the collaborators. *)

From Stdlib Require Import ZArith List String Bool Lia Relations.
Import ListNotations.
Local Open Scope string_scope.
Local Open Scope list_scope.

(** ** Configuration messages *)

(** Modelled from the spec: the generated protobuf headers
    ([ext_authz.pb.h], [grpc_service.pb.h]) are not among the sources; the
    messages carry the logical fields the factory reads (section 6 of the
    specification).  An optional sub-message is an [option]; its accessor
    returns the default instance when the field is unset, as protobuf
    accessors do. *)
Module Duration.
Record t := mk { seconds : Z; nanos : Z }.
End Duration.

(** Modelled from the spec: [envoy::config::core::v3::ApiVersion], the enum
    of [transport_api_version] (section 6). *)
Inductive ApiVersion := AUTO | V2 | V3.

(** Modelled from the spec: [server_uri], which carries the raw-HTTP
    [timeout] (section 6). *)
Module HttpUri.
Record t := mk { uri : string; cluster : string; timeout : option Duration.t }.
Definition default_instance : t := mk "" "" None.
End HttpUri.

(** Modelled from the spec: [http_service], with [server_uri] and
    [path_prefix] (section 6). *)
Module HttpService.
Record t := mk { server_uri : HttpUri.t; path_prefix : string }.
Definition default_instance : t := mk HttpUri.default_instance "".
End HttpService.

(** Modelled from the spec: [grpc_service], whose target is the
    [google_grpc] variant, another one, or unset, and which carries the
    gRPC [timeout] (section 6). *)
Module GrpcService.
Inductive target_specifier_case :=
| TARGET_SPECIFIER_NOT_SET
| envoy_grpc (cluster_name : string)
| google_grpc (target_uri : string) (stat_prefix : string).
Record t := mk { target_specifier : target_specifier_case;
                 timeout : option Duration.t }.
Definition default_instance : t := mk TARGET_SPECIFIER_NOT_SET None.
Definition has_google_grpc (m : t) : bool :=
  match target_specifier m with
  | google_grpc _ _ => true
  | _ => false
  end.
Definition eq_dec (a b : t) : {a = b} + {a <> b}.
Proof.
  repeat decide equality; try apply Z.eq_dec; apply string_dec.
Defined.
End GrpcService.

(** Modelled from the spec: the filter's configuration block
    (section 6). *)
Module ExtAuthz.
Record t := mk { grpc_service_field : option GrpcService.t;
                 http_service_field : option HttpService.t;
                 transport_api_version : ApiVersion;
                 hidden_envoy_deprecated_use_alpha : bool }.
Definition has_http_service (m : t) : bool :=
  match http_service_field m with Some _ => true | None => false end.
Definition http_service (m : t) : HttpService.t :=
  match http_service_field m with
  | Some s => s
  | None => HttpService.default_instance
  end.
Definition has_grpc_service (m : t) : bool :=
  match grpc_service_field m with Some _ => true | None => false end.
Definition grpc_service (m : t) : GrpcService.t :=
  match grpc_service_field m with
  | Some s => s
  | None => GrpcService.default_instance
  end.
End ExtAuthz.

(** ** Objects, world and effects *)

Definition ObjId := nat.

Inductive Exception := EnvoyException (what : string).

Inductive Result (A : Type) :=
| Ok (a : A)
| Throw (e : Exception).
Arguments Ok {A} a.
Arguments Throw {A} e.

(** Calls on the collaborators, most recent first. *)
Inductive Event :=
| EvGetOrCreateAsyncClientCache (svc : GrpcService.t)
| EvCacheEntryCreated (svc : GrpcService.t) (handle : ObjId)
| EvFactoryForGrpcService (svc : GrpcService.t)
| EvAsyncClientCreated (id : ObjId)
| EvClientConstructed (id : ObjId).

Record World := mkWorld {
  next_object : ObjId;
  async_clients_ : list (GrpcService.t * ObjId);
  rejected_api_versions : list ApiVersion;
  trace : list Event }.

Definition M (A : Type) : Type := World -> Result A * World.

Definition ret {A} (a : A) : M A := fun w => (Ok a, w).

Definition bind {A B} (m : M A) (k : A -> M B) : M B :=
  fun w =>
    match m w with
    | (Ok a, w') => k a w'
    | (Throw e, w') => (Throw e, w')
    end.

Definition throw {A} (e : Exception) : M A := fun w => (Throw e, w).

Notation "x <- m ;; k" := (bind m (fun x => k))
  (at level 61, m at next level, right associativity).

(** [std::make_shared] / [std::make_unique]: a fresh object identity. *)
Definition fresh : M ObjId :=
  fun w => (Ok (next_object w),
            mkWorld (S (next_object w)) (async_clients_ w)
                    (rejected_api_versions w) (trace w)).

Definition emit (e : Event) : M unit :=
  fun w => (Ok tt,
            mkWorld (next_object w) (async_clients_ w)
                    (rejected_api_versions w) (e :: trace w)).

(** ** Timeouts *)

(** Modelled from the spec: the validation the timeout resolver makes
    (sections 2 and 7: it "extracts/validates", and a malformed timeout
    value is a configuration error); the helper is outside the sources.  A
    duration used as a timeout is well formed when its seconds are not
    negative and its nanos lie in [0, 999999999]. *)
Definition duration_well_formed (d : Duration.t) : bool :=
  ((0 <=? Duration.seconds d) && (0 <=? Duration.nanos d)
   && (Duration.nanos d <=? 999999999))%Z.

(** Modelled from the spec: the millisecond value of a duration, with no
    upper bound (section 4.2). *)
Definition milliseconds_of (d : Duration.t) : Z :=
  (Duration.seconds d * 1000 + Z.quot (Duration.nanos d) 1000000)%Z.

(** Modelled from the spec: the duration helper behind
    [PROTOBUF_GET_MS_OR_DEFAULT] ([common/protobuf/utility.h] is not among
    the sources).  It throws on a malformed duration (section 7) and is the
    millisecond value of a well-formed one (section 4.2). *)
Definition durationToMilliseconds (d : Duration.t) : Result Z :=
  if duration_well_formed d
  then Ok (milliseconds_of d)
  else Throw (EnvoyException "malformed timeout value").

(** Modelled from the spec: the macro [PROTOBUF_GET_MS_OR_DEFAULT(message,
    field, default)] is defined outside the sources; it yields the field's
    milliseconds when the field is present, throwing when the field is
    malformed, and the default otherwise (sections 4.2 and 7). *)
Definition PROTOBUF_GET_MS_OR_DEFAULT (field : option Duration.t)
  (default_value : Z) : Result Z :=
  match field with
  | Some d => durationToMilliseconds d
  | None => Ok default_value
  end.

(** [const uint32_t timeout_ms = ...]: the value is stored in an unsigned
    32-bit integer, so it is reduced modulo 2^32. *)
Definition uint32_t (z : Z) : Z := (z mod 2 ^ 32)%Z.

(** An expression that may throw, evaluated in the current state. *)
Definition lift {A} (r : Result A) : M A := fun w => (r, w).

(** ** The factory context *)

Record AsyncClientFactory := mkFactory { factory_service : GrpcService.t }.

(** Modelled from the spec: the connection manager is an external
    collaborator; its factory either produces a client factory for a
    service descriptor or fails (section 7, "fails to produce a client").
    The arguments are those of the call in the source: descriptor, scope,
    and the boolean flag. *)
Record AsyncClientManager := mkManager {
  factoryForGrpcService_impl :
    GrpcService.t -> string -> bool -> Result AsyncClientFactory }.

Record ClusterManager := mkCluster {
  grpcAsyncClientManager : AsyncClientManager }.

Record FactoryContext := mkContext {
  localInfo : string;
  scope : string;
  runtime : string;
  httpContext : string;
  threadLocal : string;
  getServerFactoryContext : string;
  clusterManager : ClusterManager }.

(** Modelled from the spec: the call of the manager's factory, recorded in
    the trace; it throws what the manager answers when it fails. *)
Definition factoryForGrpcService (m : AsyncClientManager)
  (svc : GrpcService.t) (sc : string) (flag : bool) : M AsyncClientFactory :=
  _ <- emit (EvFactoryForGrpcService svc) ;;
  match factoryForGrpcService_impl m svc sc flag with
  | Ok f => ret f
  | Throw e => throw e
  end.

(** Modelled from the spec: the raw client a [GrpcClientImpl] wraps is
    either the one a cache entry holds or one the caller owns
    (section 4.4). *)
Inductive RawAsyncClient :=
| CachedAsyncClient (cache : ObjId)
| OwnedAsyncClient (id : ObjId).

(** Modelled from the spec: [async_client_factory->create()] is outside the
    sources; it hands a new client to the caller (section 4.4, "a fresh RPC
    client ... not cached"). *)
Definition create (f : AsyncClientFactory) : M RawAsyncClient :=
  id <- fresh ;;
  _ <- emit (EvAsyncClientCreated id) ;;
  ret (OwnedAsyncClient id).

(** Modelled from the spec: [async_client_cache->getAsyncClient()] is
    outside the sources; it is the client held by the cache entry
    (section 4.4, "the returned shared handle"). *)
Definition getAsyncClient (cache : ObjId) : RawAsyncClient :=
  CachedAsyncClient cache.

(** ** The client cache *)

Fixpoint cache_find (svc : GrpcService.t)
  (l : list (GrpcService.t * ObjId)) : option ObjId :=
  match l with
  | [] => None
  | (k, h) :: l' =>
      if GrpcService.eq_dec svc k then Some h else cache_find svc l'
  end.

(** Modelled from the spec: [Grpc::getAsyncClientCacheSingleton] and the
    singleton's class are not among the sources.  The cache is process-wide
    (section 4.3): the singleton is a handle on the [async_clients_] map of
    the world. *)
Inductive AsyncClientCacheSingleton := ProcessWideCache.

(** Modelled from the spec: [Grpc::getAsyncClientCacheSingleton] is outside
    the sources; the cache exists from process start (section 4.3), so the
    call only hands out the handle. *)
Definition getAsyncClientCacheSingleton (server_context : string)
  : M AsyncClientCacheSingleton := ret ProcessWideCache.

(** Modelled from the spec: [getOrCreateAsyncClientCache] is not among the
    sources.  Section 4.3: [getOrCreate] returns the handle stored under
    the descriptor's key when there is one; otherwise it constructs one
    through the connection manager (which may fail, section 7), stores it
    and returns it. *)
Definition getOrCreateAsyncClientCache (_ : AsyncClientCacheSingleton)
  (m : AsyncClientManager) (sc tls : string) (svc : GrpcService.t)
  : M ObjId :=
  _ <- emit (EvGetOrCreateAsyncClientCache svc) ;;
  fun w =>
    match cache_find svc (async_clients_ w) with
    | Some h => (Ok h, w)
    | None =>
        (_ <- factoryForGrpcService m svc sc true ;;
         h <- fresh ;;
         _ <- emit (EvCacheEntryCreated svc h) ;;
         fun w' => (Ok h, mkWorld (next_object w')
                                  ((svc, h) :: async_clients_ w')
                                  (rejected_api_versions w') (trace w'))) w
    end.

Definition ApiVersion_eqb (a b : ApiVersion) : bool :=
  match a, b with
  | AUTO, AUTO | V2, V2 | V3, V3 => true
  | _, _ => false
  end.

(** Modelled from the spec: [Config::Utility::getAndCheckTransportVersion]
    is not among the sources.  It hands back the block's
    [transport_api_version] unchanged (section 6); the check it makes is
    the process's own: a version the process rejects aborts loading. *)
Definition getAndCheckTransportVersion (api_config_source : ExtAuthz.t)
  : M ApiVersion :=
  fun w =>
    let v := ExtAuthz.transport_api_version api_config_source in
    if existsb (ApiVersion_eqb v) (rejected_api_versions w)
    then (Throw (EnvoyException "transport api version rejected"), w)
    else (Ok v, w).

(** ** Filter objects *)

(** Modelled from the spec: the constructors of [FilterConfig],
    [ClientConfig], [RawHttpClientImpl], [GrpcClientImpl] and [Filter] live
    in headers outside the sources; each object records its identity and
    the arguments it was constructed with. *)
Record FilterConfig := mkFilterConfig {
  fc_id : ObjId;
  fc_proto_config : ExtAuthz.t;
  fc_local_info : string;
  fc_scope : string;
  fc_runtime : string;
  fc_http_context : string;
  fc_stats_prefix : string }.

Record ClientConfig := mkClientConfig {
  cc_id : ObjId;
  cc_proto_config : ExtAuthz.t;
  cc_timeout : Z;
  cc_path_prefix : string }.

Inductive Client :=
| RawHttpClientImpl (id : ObjId) (cm : ClusterManager) (config : ClientConfig)
| GrpcClientImpl (id : ObjId) (async_client : RawAsyncClient)
    (timeout : Z) (transport_api_version : ApiVersion).

Definition client_id (c : Client) : ObjId :=
  match c with
  | RawHttpClientImpl id _ _ => id
  | GrpcClientImpl id _ _ _ => id
  end.

Record Filter := mkFilter {
  filter_id : ObjId;
  filter_config : FilterConfig;
  filter_client : Client }.

(** The [std::make_shared] and [std::make_unique] calls of the source: a
    fresh identity, then the constructor.  Constructing a client is
    recorded in the trace. *)
Definition make_shared_FilterConfig (proto_config : ExtAuthz.t)
  (local_info sc rt http_context stats_prefix : string) : M FilterConfig :=
  id <- fresh ;;
  ret (mkFilterConfig id proto_config local_info sc rt http_context
                      stats_prefix).

Definition make_shared_ClientConfig (proto_config : ExtAuthz.t)
  (timeout_ms : Z) (path_prefix : string) : M ClientConfig :=
  id <- fresh ;;
  ret (mkClientConfig id proto_config timeout_ms path_prefix).

Definition make_unique_RawHttpClientImpl (cm : ClusterManager)
  (config : ClientConfig) : M Client :=
  id <- fresh ;;
  _ <- emit (EvClientConstructed id) ;;
  ret (RawHttpClientImpl id cm config).

Definition make_unique_GrpcClientImpl (async_client : RawAsyncClient)
  (timeout : Z) (transport_api_version : ApiVersion) : M Client :=
  id <- fresh ;;
  _ <- emit (EvClientConstructed id) ;;
  ret (GrpcClientImpl id async_client timeout transport_api_version).

Definition make_shared_Filter (config : FilterConfig) (client : Client)
  : M Filter :=
  id <- fresh ;;
  ret (mkFilter id config client).

(** [Http::FilterChainFactoryCallbacks]: the filters added so far. *)
Definition FilterChainFactoryCallbacks := list Filter.

Definition addStreamFilter (callbacks : FilterChainFactoryCallbacks)
  (f : Filter) : FilterChainFactoryCallbacks := callbacks ++ [f].

(** ** The callbacks

    [Http::FilterFactoryCb] is a [std::function]; each of the three lambdas
    of [createFilterFactoryFromProtoTyped] is a constructor holding what
    the lambda captures, in the order of its capture list. *)
Inductive FilterFactoryCb :=
| RawHttpCb (filter_config : FilterConfig) (client_config : ClientConfig)
    (context : FactoryContext)
| GoogleGrpcCb (async_client_cache : ObjId) (filter_config : FilterConfig)
    (timeout_ms : Z) (proto_config : ExtAuthz.t)
    (transport_api_version : ApiVersion)
| GrpcCb (grpc_service : GrpcService.t) (context : FactoryContext)
    (filter_config : FilterConfig) (timeout_ms : Z)
    (transport_api_version : ApiVersion) (use_alpha : bool).

(** Running a callback: the body of the lambda. *)
Definition invoke (cb : FilterFactoryCb)
  (callbacks : FilterChainFactoryCallbacks) : M FilterChainFactoryCallbacks :=
  match cb with
  | RawHttpCb filter_config client_config context =>
      client <- make_unique_RawHttpClientImpl (clusterManager context)
                  client_config ;;
      filter <- make_shared_Filter filter_config client ;;
      ret (addStreamFilter callbacks filter)
  | GoogleGrpcCb async_client_cache filter_config timeout_ms _
                 transport_api_version =>
      client <- make_unique_GrpcClientImpl (getAsyncClient async_client_cache)
                  timeout_ms transport_api_version ;;
      filter <- make_shared_Filter filter_config client ;;
      ret (addStreamFilter callbacks filter)
  | GrpcCb grpc_service context filter_config timeout_ms
           transport_api_version _ =>
      async_client_factory <-
        factoryForGrpcService (grpcAsyncClientManager (clusterManager context))
          grpc_service (scope context) true ;;
      async_client <- create async_client_factory ;;
      client <- make_unique_GrpcClientImpl async_client timeout_ms
                  transport_api_version ;;
      filter <- make_shared_Filter filter_config client ;;
      ret (addStreamFilter callbacks filter)
  end.

(** ** Sample inputs *)

Module Sample.

(** A connection manager that knows every service, and one that knows
    none. *)
Definition manager_ok : AsyncClientManager :=
  mkManager (fun svc _ _ => Ok (mkFactory svc)).

Definition manager_failing : AsyncClientManager :=
  mkManager (fun _ _ _ => Throw (EnvoyException "unknown cluster")).

Definition context_ok : FactoryContext :=
  mkContext "local" "scope" "runtime" "http" "tls" "server"
    (mkCluster manager_ok).

Definition context_failing : FactoryContext :=
  mkContext "local" "scope" "runtime" "http" "tls" "server"
    (mkCluster manager_failing).

(** The default timeout used for the sample runs, in milliseconds. *)
Definition sample_default : Z := 200%Z.

(** The process before anything was loaded. *)
Definition world0 : World := mkWorld 0 [] [] [].

Definition ms250 : Duration.t := Duration.mk 0 250000000.

Definition google_service : GrpcService.t :=
  GrpcService.mk (GrpcService.google_grpc "authz.example:443" "authz")
    (Some ms250).

Definition envoy_service : GrpcService.t :=
  GrpcService.mk (GrpcService.envoy_grpc "ext-authz") None.

Definition http_target (timeout : option Duration.t) : HttpService.t :=
  HttpService.mk (HttpUri.mk "http://authz" "authz" timeout) "/auth".

(** Scenario of the specification: raw HTTP, 250ms, prefix "/auth"; here
    with a gRPC service present as well. *)
Definition cfg_http_and_grpc : ExtAuthz.t :=
  ExtAuthz.mk (Some google_service) (Some (http_target (Some ms250))) V3
    false.

Definition cfg_http_use_alpha : ExtAuthz.t :=
  ExtAuthz.mk None (Some (http_target (Some ms250))) V3 true.

(** A raw-HTTP timeout of 4294968 seconds, that is 4294968000 ms. *)
Definition cfg_http_long_timeout : ExtAuthz.t :=
  ExtAuthz.mk None (Some (http_target (Some (Duration.mk 4294968 0)))) V3
    false.

Definition cfg_http_no_timeout : ExtAuthz.t :=
  ExtAuthz.mk None (Some (http_target None)) V3 false.

Definition cfg_google : ExtAuthz.t :=
  ExtAuthz.mk (Some google_service) None V3 false.

Definition cfg_google_use_alpha : ExtAuthz.t :=
  ExtAuthz.mk (Some google_service) None V3 true.

Definition cfg_envoy_grpc : ExtAuthz.t :=
  ExtAuthz.mk (Some envoy_service) None V2 false.

(** A raw-HTTP block whose timeout is malformed: minus five seconds. *)
Definition cfg_http_negative : ExtAuthz.t :=
  ExtAuthz.mk (Some google_service)
    (Some (http_target (Some (Duration.mk (-5) 0)))) V3 false.

(** A generic gRPC block whose timeout is malformed: minus one second. *)
Definition cfg_grpc_negative : ExtAuthz.t :=
  ExtAuthz.mk
    (Some (GrpcService.mk (GrpcService.envoy_grpc "ext-authz")
             (Some (Duration.mk (-1) 0))))
    None V3 false.

(** Neither [http_service] nor [grpc_service]. *)
Definition cfg_empty : ExtAuthz.t := ExtAuthz.mk None None AUTO false.

End Sample.

(** ** The factory *)

Section Factory.

(** [ExtAuthzFilterConfig::DefaultTimeout] is declared in [config.h], which
    is not among the sources. *)
Variable DefaultTimeout : Z.

Definition createFilterFactoryFromProtoTyped (proto_config : ExtAuthz.t)
  (stats_prefix : string) (context : FactoryContext) : M FilterFactoryCb :=
  filter_config <-
    make_shared_FilterConfig proto_config (localInfo context) (scope context)
      (runtime context) (httpContext context) stats_prefix ;;
  if ExtAuthz.has_http_service proto_config then
    ms <- lift (PROTOBUF_GET_MS_OR_DEFAULT
                  (HttpUri.timeout
                     (HttpService.server_uri
                        (ExtAuthz.http_service proto_config)))
                  DefaultTimeout) ;;
    let timeout_ms := uint32_t ms in
    client_config <-
      make_shared_ClientConfig proto_config timeout_ms
        (HttpService.path_prefix (ExtAuthz.http_service proto_config)) ;;
    ret (RawHttpCb filter_config client_config context)
  else if GrpcService.has_google_grpc (ExtAuthz.grpc_service proto_config) then
    if ExtAuthz.hidden_envoy_deprecated_use_alpha proto_config then
      throw (EnvoyException
               "The use_alpha field is deprecated and is no longer supported.")
    else
      ms <- lift (PROTOBUF_GET_MS_OR_DEFAULT
                    (GrpcService.timeout (ExtAuthz.grpc_service proto_config))
                    DefaultTimeout) ;;
      let timeout_ms := uint32_t ms in
      async_client_cache_singleton <-
        getAsyncClientCacheSingleton (getServerFactoryContext context) ;;
      async_client_cache <-
        getOrCreateAsyncClientCache async_client_cache_singleton
          (grpcAsyncClientManager (clusterManager context)) (scope context)
          (threadLocal context) (ExtAuthz.grpc_service proto_config) ;;
      transport_api_version <- getAndCheckTransportVersion proto_config ;;
      ret (GoogleGrpcCb async_client_cache filter_config timeout_ms
             proto_config transport_api_version)
  else
    ms <- lift (PROTOBUF_GET_MS_OR_DEFAULT
                  (GrpcService.timeout (ExtAuthz.grpc_service proto_config))
                  DefaultTimeout) ;;
    let timeout_ms := uint32_t ms in
    ret (GrpcCb (ExtAuthz.grpc_service proto_config) context filter_config
           timeout_ms (ExtAuthz.transport_api_version proto_config)
           (ExtAuthz.hidden_envoy_deprecated_use_alpha proto_config)).

(** ** Per-route configuration *)

(** Modelled from the spec: the per-route fragment's schema, the server
    context and the validation visitor are opaque to this file (section 6);
    [FilterConfigPerRoute]'s constructor is outside the sources and takes
    the fragment alone. *)
Variables ExtAuthzPerRoute ServerFactoryContext ValidationVisitor : Type.

(** Modelled from the spec: the per-route object records its identity and
    the fragment it was constructed from (section 4.6). *)
Record FilterConfigPerRoute := mkPerRoute {
  pr_id : ObjId;
  pr_proto_config : ExtAuthzPerRoute }.

Definition createRouteSpecificFilterConfigTyped
  (proto_config : ExtAuthzPerRoute) (_ : ServerFactoryContext)
  (_ : ValidationVisitor) : M FilterConfigPerRoute :=
  id <- fresh ;;
  ret (mkPerRoute id proto_config).

(** ** Runs of the process

    One step is one call of an entry point of this file, or one run of a
    callback it returned, whatever its outcome. *)
Inductive step : World -> World -> Prop :=
| step_load proto_config stats_prefix context w :
    step w (snd (createFilterFactoryFromProtoTyped proto_config stats_prefix
                   context w))
| step_invoke cb callbacks w :
    step w (snd (invoke cb callbacks w))
| step_route proto_config context visitor w :
    step w (snd (createRouteSpecificFilterConfigTyped proto_config context
                   visitor w)).

Definition steps : World -> World -> Prop := clos_refl_trans_1n World step.

(** ** Observations on a world and on a callback *)

Definition is_cache_lookup (e : Event) : bool :=
  match e with EvGetOrCreateAsyncClientCache _ => true | _ => false end.

Definition is_factory_call (e : Event) : bool :=
  match e with EvFactoryForGrpcService _ => true | _ => false end.

Definition is_client_construction (e : Event) : bool :=
  match e with EvClientConstructed _ => true | _ => false end.

Definition cache_lookups (w : World) : nat :=
  List.length (filter is_cache_lookup (trace w)).

Definition factory_calls (w : World) : nat :=
  List.length (filter is_factory_call (trace w)).

Definition clients_constructed (w : World) : nat :=
  List.length (filter is_client_construction (trace w)).

(** The timeout a callback has captured. *)
Definition cb_timeout_ms (cb : FilterFactoryCb) : Z :=
  match cb with
  | RawHttpCb _ client_config _ => cc_timeout client_config
  | GoogleGrpcCb _ _ timeout_ms _ _ => timeout_ms
  | GrpcCb _ _ _ timeout_ms _ _ => timeout_ms
  end.

(** The filter configuration a callback has captured. *)
Definition cb_filter_config (cb : FilterFactoryCb) : FilterConfig :=
  match cb with
  | RawHttpCb filter_config _ _ => filter_config
  | GoogleGrpcCb _ filter_config _ _ _ => filter_config
  | GrpcCb _ _ filter_config _ _ _ => filter_config
  end.

(** The timeout a client was constructed with. *)
Definition client_timeout (c : Client) : Z :=
  match c with
  | RawHttpClientImpl _ _ config => cc_timeout config
  | GrpcClientImpl _ _ timeout _ => timeout
  end.

(** The timeout field the specification names for a configuration block:
    [http_service.server_uri.timeout] on the raw-HTTP path,
    [grpc_service.timeout] on both gRPC paths. *)
Definition spec_timeout_field (proto_config : ExtAuthz.t)
  : option Duration.t :=
  if ExtAuthz.has_http_service proto_config
  then HttpUri.timeout
         (HttpService.server_uri (ExtAuthz.http_service proto_config))
  else GrpcService.timeout (ExtAuthz.grpc_service proto_config).

(** Several callbacks run in turn on one callbacks object, as when a
    filter chain with several filters is instantiated; an exception ends
    the run. *)
Fixpoint invoke_each (factories : list FilterFactoryCb)
  (callbacks : FilterChainFactoryCallbacks) : M FilterChainFactoryCallbacks :=
  match factories with
  | [] => ret callbacks
  | cb :: rest =>
      callbacks' <- invoke cb callbacks ;;
      invoke_each rest callbacks'
  end.

(** The number of calls a run of the callback makes on the connection
    manager: the generic-gRPC lambda is the only one whose body calls
    [factoryForGrpcService]. *)
Definition manager_calls_per_run (cb : FilterFactoryCb) : nat :=
  match cb with
  | GrpcCb _ _ _ _ _ _ => 1
  | RawHttpCb _ _ _ | GoogleGrpcCb _ _ _ _ _ => 0
  end.

(** * Properties *)

Ltac unfold_effects :=
  unfold make_shared_FilterConfig, make_shared_ClientConfig,
    make_unique_RawHttpClientImpl, make_unique_GrpcClientImpl,
    make_shared_Filter, getAsyncClientCacheSingleton,
    getOrCreateAsyncClientCache,
    getAndCheckTransportVersion, factoryForGrpcService, create,
    getAsyncClient, addStreamFilter, bind, ret, throw, lift, fresh, emit.

(** Case analysis on the innermost scrutinee first. *)
Ltac split_matches :=
  repeat match goal with
         | |- context [match ?x with _ => _ end] =>
             lazymatch x with
             | context [match _ with _ => _ end] => fail
             | _ => destruct x eqn:?; simpl
             end
         end.

(** ** What each branch of the factory returns *)

Lemma load_raw_http proto_config stats_prefix context w :
  ExtAuthz.has_http_service proto_config = true ->
  createFilterFactoryFromProtoTyped proto_config stats_prefix context w =
  match PROTOBUF_GET_MS_OR_DEFAULT
          (HttpUri.timeout
             (HttpService.server_uri (ExtAuthz.http_service proto_config)))
          DefaultTimeout with
  | Ok ms =>
      (Ok (RawHttpCb
             (mkFilterConfig (next_object w) proto_config (localInfo context)
                (scope context) (runtime context) (httpContext context)
                stats_prefix)
             (mkClientConfig (S (next_object w)) proto_config (uint32_t ms)
                (HttpService.path_prefix
                   (ExtAuthz.http_service proto_config)))
             context),
       mkWorld (S (S (next_object w))) (async_clients_ w)
         (rejected_api_versions w) (trace w))
  | Throw e =>
      (Throw e,
       mkWorld (S (next_object w)) (async_clients_ w)
         (rejected_api_versions w) (trace w))
  end.
Proof.
  intros Hhttp. unfold createFilterFactoryFromProtoTyped.
  unfold_effects. simpl. rewrite Hhttp.
  destruct (PROTOBUF_GET_MS_OR_DEFAULT _ _); reflexivity.
Qed.

Lemma load_use_alpha proto_config stats_prefix context w :
  ExtAuthz.has_http_service proto_config = false ->
  GrpcService.has_google_grpc (ExtAuthz.grpc_service proto_config) = true ->
  ExtAuthz.hidden_envoy_deprecated_use_alpha proto_config = true ->
  createFilterFactoryFromProtoTyped proto_config stats_prefix context w =
  (Throw (EnvoyException
            "The use_alpha field is deprecated and is no longer supported."),
   mkWorld (S (next_object w)) (async_clients_ w)
     (rejected_api_versions w) (trace w)).
Proof.
  intros Hhttp Hgoogle Halpha. unfold createFilterFactoryFromProtoTyped.
  unfold_effects. simpl. rewrite Hhttp, Hgoogle, Halpha. reflexivity.
Qed.

Lemma load_generic_grpc proto_config stats_prefix context w :
  ExtAuthz.has_http_service proto_config = false ->
  GrpcService.has_google_grpc (ExtAuthz.grpc_service proto_config) = false ->
  createFilterFactoryFromProtoTyped proto_config stats_prefix context w =
  match PROTOBUF_GET_MS_OR_DEFAULT
          (GrpcService.timeout (ExtAuthz.grpc_service proto_config))
          DefaultTimeout with
  | Ok ms =>
      (Ok (GrpcCb (ExtAuthz.grpc_service proto_config) context
             (mkFilterConfig (next_object w) proto_config (localInfo context)
                (scope context) (runtime context) (httpContext context)
                stats_prefix)
             (uint32_t ms)
             (ExtAuthz.transport_api_version proto_config)
             (ExtAuthz.hidden_envoy_deprecated_use_alpha proto_config)),
       mkWorld (S (next_object w)) (async_clients_ w)
         (rejected_api_versions w) (trace w))
  | Throw e =>
      (Throw e,
       mkWorld (S (next_object w)) (async_clients_ w)
         (rejected_api_versions w) (trace w))
  end.
Proof.
  intros Hhttp Hgoogle. unfold createFilterFactoryFromProtoTyped.
  unfold_effects. simpl. rewrite Hhttp, Hgoogle.
  destruct (PROTOBUF_GET_MS_OR_DEFAULT _ _); reflexivity.
Qed.

(** A malformed timeout on the google_grpc branch ends the load before the
    cache is consulted. *)
Lemma load_google_grpc_malformed proto_config stats_prefix context w e :
  ExtAuthz.has_http_service proto_config = false ->
  GrpcService.has_google_grpc (ExtAuthz.grpc_service proto_config) = true ->
  ExtAuthz.hidden_envoy_deprecated_use_alpha proto_config = false ->
  PROTOBUF_GET_MS_OR_DEFAULT
    (GrpcService.timeout (ExtAuthz.grpc_service proto_config))
    DefaultTimeout = Throw e ->
  createFilterFactoryFromProtoTyped proto_config stats_prefix context w =
  (Throw e,
   mkWorld (S (next_object w)) (async_clients_ w)
     (rejected_api_versions w) (trace w)).
Proof.
  intros Hhttp Hgoogle Halpha Hms. unfold createFilterFactoryFromProtoTyped.
  unfold_effects. simpl. rewrite Hhttp, Hgoogle, Halpha, Hms. reflexivity.
Qed.

(** A successful load on the google_grpc branch: the timeout was well
    formed, the callback holds the handle the cache has for the
    descriptor, and exactly one cache lookup was made. *)
Lemma load_google_grpc proto_config stats_prefix context w cb w' :
  ExtAuthz.has_http_service proto_config = false ->
  GrpcService.has_google_grpc (ExtAuthz.grpc_service proto_config) = true ->
  createFilterFactoryFromProtoTyped proto_config stats_prefix context w =
  (Ok cb, w') ->
  exists h ms,
    cb = GoogleGrpcCb h
           (mkFilterConfig (next_object w) proto_config (localInfo context)
              (scope context) (runtime context) (httpContext context)
              stats_prefix)
           (uint32_t ms) proto_config
           (ExtAuthz.transport_api_version proto_config) /\
    PROTOBUF_GET_MS_OR_DEFAULT
      (GrpcService.timeout (ExtAuthz.grpc_service proto_config))
      DefaultTimeout = Ok ms /\
    ExtAuthz.hidden_envoy_deprecated_use_alpha proto_config = false /\
    cache_find (ExtAuthz.grpc_service proto_config) (async_clients_ w') =
    Some h /\
    cache_lookups w' = S (cache_lookups w) /\
    clients_constructed w' = clients_constructed w /\
    (forall h0,
        cache_find (ExtAuthz.grpc_service proto_config) (async_clients_ w) =
        Some h0 ->
        h = h0 /\ async_clients_ w' = async_clients_ w).
Proof.
  intros Hhttp Hgoogle. unfold createFilterFactoryFromProtoTyped.
  unfold_effects. unfold cache_lookups, clients_constructed. simpl.
  rewrite Hhttp, Hgoogle.
  destruct (ExtAuthz.hidden_envoy_deprecated_use_alpha proto_config);
    [discriminate|].
  simpl.
  destruct (PROTOBUF_GET_MS_OR_DEFAULT _ _) as [ms|]; [|discriminate].
  simpl.
  destruct (cache_find (ExtAuthz.grpc_service proto_config)
              (async_clients_ w)) as [h0|] eqn:Hfind; simpl.
  - destruct (existsb _ _); [discriminate|].
    intros Heq. inversion Heq; subst; clear Heq. simpl.
    exists h0, ms. repeat split; auto; congruence.
  - destruct (factoryForGrpcService_impl _ _ _ _); simpl; [|discriminate].
    destruct (existsb _ _); [discriminate|].
    intros Heq. inversion Heq; subst; clear Heq. simpl.
    exists (S (next_object w)), ms. repeat split; auto; try discriminate.
    destruct (GrpcService.eq_dec _ _); [reflexivity|contradiction].
Qed.

(** ** What each callback does when it runs *)

Lemma invoke_raw_http filter_config client_config context callbacks w :
  invoke (RawHttpCb filter_config client_config context) callbacks w =
  (Ok (callbacks ++
       [mkFilter (S (next_object w)) filter_config
          (RawHttpClientImpl (next_object w) (clusterManager context)
             client_config)]),
   mkWorld (S (S (next_object w))) (async_clients_ w)
     (rejected_api_versions w)
     (EvClientConstructed (next_object w) :: trace w)).
Proof. reflexivity. Qed.

Lemma invoke_google_grpc h filter_config timeout_ms proto_config version
  callbacks w :
  invoke (GoogleGrpcCb h filter_config timeout_ms proto_config version)
    callbacks w =
  (Ok (callbacks ++
       [mkFilter (S (next_object w)) filter_config
          (GrpcClientImpl (next_object w) (CachedAsyncClient h) timeout_ms
             version)]),
   mkWorld (S (S (next_object w))) (async_clients_ w)
     (rejected_api_versions w)
     (EvClientConstructed (next_object w) :: trace w)).
Proof. reflexivity. Qed.

Lemma invoke_generic_grpc svc context filter_config timeout_ms version
  use_alpha callbacks w :
  invoke (GrpcCb svc context filter_config timeout_ms version use_alpha)
    callbacks w =
  match factoryForGrpcService_impl
          (grpcAsyncClientManager (clusterManager context)) svc
          (scope context) true with
  | Ok _ =>
      (Ok (callbacks ++
           [mkFilter (S (S (next_object w))) filter_config
              (GrpcClientImpl (S (next_object w))
                 (OwnedAsyncClient (next_object w)) timeout_ms version)]),
       mkWorld (S (S (S (next_object w)))) (async_clients_ w)
         (rejected_api_versions w)
         (EvClientConstructed (S (next_object w))
          :: EvAsyncClientCreated (next_object w)
          :: EvFactoryForGrpcService svc :: trace w))
  | Throw e =>
      (Throw e,
       mkWorld (next_object w) (async_clients_ w) (rejected_api_versions w)
         (EvFactoryForGrpcService svc :: trace w))
  end.
Proof.
  unfold invoke. unfold_effects. simpl.
  destruct (factoryForGrpcService_impl _ _ _ _); reflexivity.
Qed.

(** A callback of the generic branch that ran to completion consulted the
    connection manager and built an owned client. *)
Lemma invoke_generic_grpc_ok svc context filter_config timeout_ms version
  use_alpha callbacks w out w' :
  invoke (GrpcCb svc context filter_config timeout_ms version use_alpha)
    callbacks w = (Ok out, w') ->
  out = callbacks ++
        [mkFilter (S (S (next_object w))) filter_config
           (GrpcClientImpl (S (next_object w))
              (OwnedAsyncClient (next_object w)) timeout_ms version)] /\
  w' = mkWorld (S (S (S (next_object w)))) (async_clients_ w)
         (rejected_api_versions w)
         (EvClientConstructed (S (next_object w))
          :: EvAsyncClientCreated (next_object w)
          :: EvFactoryForGrpcService svc :: trace w).
Proof.
  rewrite invoke_generic_grpc.
  destruct (factoryForGrpcService_impl _ _ _ _); intros Heq;
    inversion Heq; auto.
Qed.

(** The three ways a load can succeed. *)
Lemma load_cases proto_config stats_prefix context w cb w' :
  createFilterFactoryFromProtoTyped proto_config stats_prefix context w =
  (Ok cb, w') ->
  let fc := mkFilterConfig (next_object w) proto_config (localInfo context)
              (scope context) (runtime context) (httpContext context)
              stats_prefix in
  (ExtAuthz.has_http_service proto_config = true /\
   exists cc, cb = RawHttpCb fc cc context) \/
  (ExtAuthz.has_http_service proto_config = false /\
   GrpcService.has_google_grpc (ExtAuthz.grpc_service proto_config) = true /\
   exists h t,
     cb = GoogleGrpcCb h fc t proto_config
            (ExtAuthz.transport_api_version proto_config)) \/
  (ExtAuthz.has_http_service proto_config = false /\
   GrpcService.has_google_grpc (ExtAuthz.grpc_service proto_config) = false /\
   exists t,
     cb = GrpcCb (ExtAuthz.grpc_service proto_config) context fc t
            (ExtAuthz.transport_api_version proto_config)
            (ExtAuthz.hidden_envoy_deprecated_use_alpha proto_config)).
Proof.
  intros Hload fc.
  destruct (ExtAuthz.has_http_service proto_config) eqn:Hhttp.
  - left. rewrite load_raw_http in Hload by assumption.
    destruct (PROTOBUF_GET_MS_OR_DEFAULT _ _); inversion Hload. eauto.
  - right.
    destruct (GrpcService.has_google_grpc
                (ExtAuthz.grpc_service proto_config)) eqn:Hgoogle.
    + left.
      destruct (load_google_grpc _ _ _ _ _ _ Hhttp Hgoogle Hload)
        as (h & ms & -> & _).
      eauto.
    + right. rewrite load_generic_grpc in Hload by assumption.
      destruct (PROTOBUF_GET_MS_OR_DEFAULT _ _); inversion Hload. eauto.
Qed.

(** ** Runs: the allocator only grows and cache entries stay *)

Lemma load_next_object proto_config stats_prefix context w :
  next_object w <
  next_object (snd (createFilterFactoryFromProtoTyped proto_config
                      stats_prefix context w)).
Proof.
  unfold createFilterFactoryFromProtoTyped. unfold_effects. simpl.
  split_matches; simpl; lia.
Qed.

Lemma invoke_next_object cb callbacks w :
  next_object w <= next_object (snd (invoke cb callbacks w)).
Proof.
  destruct cb.
  - rewrite invoke_raw_http. simpl. lia.
  - rewrite invoke_google_grpc. simpl. lia.
  - rewrite invoke_generic_grpc. split_matches; simpl; lia.
Qed.

Lemma load_keeps_cache proto_config stats_prefix context w svc h :
  cache_find svc (async_clients_ w) = Some h ->
  cache_find svc
    (async_clients_ (snd (createFilterFactoryFromProtoTyped proto_config
                            stats_prefix context w))) = Some h.
Proof.
  intros Hfind. unfold createFilterFactoryFromProtoTyped. unfold_effects.
  simpl. split_matches; simpl; try assumption; congruence.
Qed.

Lemma invoke_keeps_cache cb callbacks w :
  async_clients_ (snd (invoke cb callbacks w)) = async_clients_ w.
Proof.
  destruct cb.
  - rewrite invoke_raw_http. reflexivity.
  - rewrite invoke_google_grpc. reflexivity.
  - rewrite invoke_generic_grpc. split_matches; reflexivity.
Qed.

Lemma step_next_object w w' : step w w' -> next_object w <= next_object w'.
Proof.
  intros Hstep. destruct Hstep.
  - apply Nat.lt_le_incl, load_next_object.
  - apply invoke_next_object.
  - simpl. lia.
Qed.

Lemma step_keeps_cache w w' svc h :
  step w w' ->
  cache_find svc (async_clients_ w) = Some h ->
  cache_find svc (async_clients_ w') = Some h.
Proof.
  intros Hstep Hfind. destruct Hstep.
  - apply load_keeps_cache; assumption.
  - rewrite invoke_keeps_cache; assumption.
  - exact Hfind.
Qed.

Lemma steps_next_object w w' : steps w w' -> next_object w <= next_object w'.
Proof.
  induction 1 as [|w w1 w2 Hstep _ IH].
  - lia.
  - apply step_next_object in Hstep. lia.
Qed.

Lemma steps_keep_cache w w' svc h :
  steps w w' ->
  cache_find svc (async_clients_ w) = Some h ->
  cache_find svc (async_clients_ w') = Some h.
Proof.
  induction 1 as [|w w1 w2 Hstep _ IH]; intros Hfind.
  - exact Hfind.
  - apply IH. eapply step_keeps_cache; eassumption.
Qed.

(** ** The claims *)

(** C1, as amended: a configuration block with the deprecated [use_alpha]
    flag set that selects the google_grpc branch ([http_service] absent,
    [grpc_service.google_grpc] set) makes the factory throw the
    "use_alpha ... no longer supported" exception while the block is
    loaded, before any client is constructed and before the client cache
    is looked up or gains an entry. *)
Theorem use_alpha_rejected_on_google_grpc proto_config stats_prefix context
  w :
  ExtAuthz.has_http_service proto_config = false ->
  GrpcService.has_google_grpc (ExtAuthz.grpc_service proto_config) = true ->
  ExtAuthz.hidden_envoy_deprecated_use_alpha proto_config = true ->
  exists w',
    createFilterFactoryFromProtoTyped proto_config stats_prefix context w =
    (Throw (EnvoyException
              "The use_alpha field is deprecated and is no longer supported."),
     w') /\
    async_clients_ w' = async_clients_ w /\
    trace w' = trace w.
Proof.
  intros Hhttp Hgoogle Halpha. eexists.
  rewrite load_use_alpha by assumption. simpl. auto.
Qed.

(** C2: whenever [http_service] is present the factory takes the raw-HTTP
    branch, whatever [grpc_service] holds.  With a well-formed
    [server_uri] timeout it returns the raw-HTTP callback, without
    touching the client cache, and every run of that callback installs a
    filter that owns a [RawHttpClientImpl] bound to the captured client
    configuration.  The one thing that ends such a load is the timeout
    resolver's own exception for a malformed timeout, raised on this
    branch before any collaborator is called. *)
Theorem http_service_takes_priority
  (grpc : option GrpcService.t) (http : HttpService.t) (version : ApiVersion)
  (use_alpha : bool) stats_prefix context w :
  let proto_config := ExtAuthz.mk grpc (Some http) version use_alpha in
  match PROTOBUF_GET_MS_OR_DEFAULT
          (HttpUri.timeout (HttpService.server_uri http)) DefaultTimeout with
  | Ok ms =>
      exists filter_config client_config w',
        createFilterFactoryFromProtoTyped proto_config stats_prefix context
          w = (Ok (RawHttpCb filter_config client_config context), w') /\
        cc_timeout client_config = uint32_t ms /\
        cc_path_prefix client_config = HttpService.path_prefix http /\
        async_clients_ w' = async_clients_ w /\
        trace w' = trace w /\
        forall callbacks w1,
        exists id f w1',
          invoke (RawHttpCb filter_config client_config context) callbacks
            w1 = (Ok (callbacks ++ [f]), w1') /\
          filter_client f =
          RawHttpClientImpl id (clusterManager context) client_config
  | Throw e =>
      exists w',
        createFilterFactoryFromProtoTyped proto_config stats_prefix context
          w = (Throw e, w') /\
        async_clients_ w' = async_clients_ w /\
        trace w' = trace w
  end.
Proof.
  intros proto_config.
  pose proof (load_raw_http proto_config stats_prefix context w eq_refl)
    as Hload.
  change (ExtAuthz.http_service proto_config) with http in Hload.
  destruct (PROTOBUF_GET_MS_OR_DEFAULT _ _) as [ms|e].
  - do 3 eexists. split; [exact Hload|].
    repeat split; try reflexivity.
    intros callbacks w1. do 3 eexists.
    rewrite invoke_raw_http. split; reflexivity.
  - eexists. split; [exact Hload|]. split; reflexivity.
Qed.

(** C8: on both gRPC branches every client a callback constructs carries
    the block's [transport_api_version], unchanged. *)
Theorem transport_api_version_verbatim proto_config stats_prefix context w
  cb w' callbacks w1 out w1' :
  ExtAuthz.has_http_service proto_config = false ->
  createFilterFactoryFromProtoTyped proto_config stats_prefix context w =
  (Ok cb, w') ->
  invoke cb callbacks w1 = (Ok out, w1') ->
  exists f id async_client timeout,
    out = callbacks ++ [f] /\
    filter_client f =
    GrpcClientImpl id async_client timeout
      (ExtAuthz.transport_api_version proto_config).
Proof.
  intros Hhttp Hload Hrun.
  destruct (load_cases _ _ _ _ _ _ Hload)
    as [(Hh & _) | [(_ & _ & h & t & ->) | (_ & _ & t & ->)]].
  - congruence.
  - rewrite invoke_google_grpc in Hrun. inversion Hrun.
    do 4 eexists. split; reflexivity.
  - apply invoke_generic_grpc_ok in Hrun. destruct Hrun as (-> & _).
    do 4 eexists. split; reflexivity.
Qed.

(** C9: the per-route object is built from the fragment alone: whatever the
    server context, the validation visitor and the state of the process,
    the call succeeds, the object holds exactly the fragment, and nothing
    but the allocator is touched. *)
Theorem route_config_from_fragment_alone (proto_config : ExtAuthzPerRoute)
  (context1 context2 : ServerFactoryContext)
  (visitor1 visitor2 : ValidationVisitor) (w1 w2 : World) :
  exists r1 r2 w1' w2',
    createRouteSpecificFilterConfigTyped proto_config context1 visitor1 w1 =
    (Ok r1, w1') /\
    createRouteSpecificFilterConfigTyped proto_config context2 visitor2 w2 =
    (Ok r2, w2') /\
    pr_proto_config r1 = proto_config /\
    pr_proto_config r2 = pr_proto_config r1 /\
    async_clients_ w1' = async_clients_ w1 /\
    trace w1' = trace w1.
Proof.
  do 4 eexists. repeat split; reflexivity.
Qed.

(** C10: with [http_service] absent and [grpc_service.google_grpc] unset
    nothing is thrown for the missing transport: with a well-formed
    [grpc_service] timeout loading succeeds and returns the generic-gRPC
    callback, and the one thing that ends such a load is the timeout
    resolver's own exception for a malformed timeout.  A block with no
    [grpc_service] at all has no timeout to resolve and always loads, with
    the default timeout and the default service descriptor. *)
Theorem generic_grpc_always_loads proto_config stats_prefix context w :
  ExtAuthz.has_http_service proto_config = false ->
  GrpcService.has_google_grpc (ExtAuthz.grpc_service proto_config) = false ->
  match PROTOBUF_GET_MS_OR_DEFAULT
          (GrpcService.timeout (ExtAuthz.grpc_service proto_config))
          DefaultTimeout with
  | Ok ms =>
      exists filter_config w',
        createFilterFactoryFromProtoTyped proto_config stats_prefix context
          w =
        (Ok (GrpcCb (ExtAuthz.grpc_service proto_config) context
               filter_config (uint32_t ms)
               (ExtAuthz.transport_api_version proto_config)
               (ExtAuthz.hidden_envoy_deprecated_use_alpha proto_config)),
         w')
  | Throw e =>
      exists w',
        createFilterFactoryFromProtoTyped proto_config stats_prefix context
          w = (Throw e, w')
  end /\
  (ExtAuthz.grpc_service_field proto_config = None ->
   exists filter_config w',
     createFilterFactoryFromProtoTyped proto_config stats_prefix context w =
     (Ok (GrpcCb GrpcService.default_instance context filter_config
            (uint32_t DefaultTimeout)
            (ExtAuthz.transport_api_version proto_config)
            (ExtAuthz.hidden_envoy_deprecated_use_alpha proto_config)),
      w')).
Proof.
  intros Hhttp Hgoogle.
  pose proof (load_generic_grpc proto_config stats_prefix context w Hhttp
                Hgoogle) as Hload.
  split.
  - destruct (PROTOBUF_GET_MS_OR_DEFAULT _ _) as [ms|e]; eauto.
  - intros Hnone. unfold ExtAuthz.grpc_service in Hload.
    rewrite Hnone in Hload. simpl in Hload. eauto.
Qed.

(** C3: a block loaded on the google_grpc branch makes exactly one lookup
    in the client cache, at load time; the callback captures the handle
    found there; every filter the callback installs wraps that handle and
    no run of the callback goes back to the cache; and a block loaded
    later in the run with an equal [grpc_service] captures the very same
    handle, without adding a cache entry. *)
Theorem shared_cache_handle_captured_once proto_config stats_prefix context
  w cb w' :
  ExtAuthz.has_http_service proto_config = false ->
  GrpcService.has_google_grpc (ExtAuthz.grpc_service proto_config) = true ->
  createFilterFactoryFromProtoTyped proto_config stats_prefix context w =
  (Ok cb, w') ->
  exists h filter_config timeout_ms version,
    cb = GoogleGrpcCb h filter_config timeout_ms proto_config version /\
    cache_lookups w' = S (cache_lookups w) /\
    cache_find (ExtAuthz.grpc_service proto_config) (async_clients_ w') =
    Some h /\
    (forall callbacks w1,
      exists id f w1',
        invoke cb callbacks w1 = (Ok (callbacks ++ [f]), w1') /\
        filter_client f =
        GrpcClientImpl id (CachedAsyncClient h) timeout_ms version /\
        cache_lookups w1' = cache_lookups w1 /\
        async_clients_ w1' = async_clients_ w1) /\
    (forall proto_config2 stats_prefix2 context2 w2 cb2 w2',
        steps w' w2 ->
        ExtAuthz.has_http_service proto_config2 = false ->
        ExtAuthz.grpc_service proto_config2 =
        ExtAuthz.grpc_service proto_config ->
        createFilterFactoryFromProtoTyped proto_config2 stats_prefix2
          context2 w2 = (Ok cb2, w2') ->
        exists filter_config2 timeout_ms2 version2,
          cb2 = GoogleGrpcCb h filter_config2 timeout_ms2 proto_config2
                  version2 /\
          async_clients_ w2' = async_clients_ w2).
Proof.
  intros Hhttp Hgoogle Hload.
  destruct (load_google_grpc _ _ _ _ _ _ Hhttp Hgoogle Hload)
    as (h & ms & -> & _ & _ & Hfind & Hlookups & _ & _).
  exists h. do 3 eexists. split; [reflexivity|].
  split; [exact Hlookups|]. split; [exact Hfind|]. split.
  - intros callbacks w1. do 3 eexists. rewrite invoke_google_grpc.
    repeat split; reflexivity.
  - intros proto_config2 stats_prefix2 context2 w2 cb2 w2' Hsteps Hhttp2
      Hsvc Hload2.
    assert (Hgoogle2 : GrpcService.has_google_grpc
                         (ExtAuthz.grpc_service proto_config2) = true)
      by (rewrite Hsvc; exact Hgoogle).
    destruct (load_google_grpc _ _ _ _ _ _ Hhttp2 Hgoogle2 Hload2)
      as (h2 & ms2 & -> & _ & _ & _ & _ & _ & Hsame).
    pose proof (steps_keep_cache _ _ _ _ Hsteps Hfind) as Hfind2.
    rewrite <- Hsvc in Hfind2.
    destruct (Hsame _ Hfind2) as (-> & Hcache).
    do 3 eexists. split; [reflexivity | exact Hcache].
Qed.

(** C4, as amended: the errors the factory itself detects surface while the
    block is loaded, and after a successful load on the raw-HTTP or the
    google_grpc branch no run of the callback fails; on the google_grpc
    branch, for a block with a well-formed timeout, a connection manager
    that cannot serve a descriptor the cache does not hold yet makes the
    load itself throw.  On the generic gRPC branch the connection manager
    is consulted inside the callback: a block with a well-formed timeout
    loads whatever the manager would answer, and a failure of the manager
    surfaces when the callback runs. *)
Theorem construction_errors_by_branch proto_config stats_prefix context w :
  let manager := grpcAsyncClientManager (clusterManager context) in
  let svc := ExtAuthz.grpc_service proto_config in
  (ExtAuthz.has_http_service proto_config = true \/
   GrpcService.has_google_grpc svc = true ->
   forall cb w',
     createFilterFactoryFromProtoTyped proto_config stats_prefix context w =
     (Ok cb, w') ->
     forall callbacks w1,
     exists out w1', invoke cb callbacks w1 = (Ok out, w1')) /\
  (ExtAuthz.has_http_service proto_config = false ->
   GrpcService.has_google_grpc svc = true ->
   ExtAuthz.hidden_envoy_deprecated_use_alpha proto_config = false ->
   cache_find svc (async_clients_ w) = None ->
   forall ms e,
     PROTOBUF_GET_MS_OR_DEFAULT (GrpcService.timeout svc) DefaultTimeout =
     Ok ms ->
     factoryForGrpcService_impl manager svc (scope context) true = Throw e ->
     exists w',
       createFilterFactoryFromProtoTyped proto_config stats_prefix context
         w = (Throw e, w')) /\
  (ExtAuthz.has_http_service proto_config = false ->
   GrpcService.has_google_grpc svc = false ->
   forall ms,
   PROTOBUF_GET_MS_OR_DEFAULT (GrpcService.timeout svc) DefaultTimeout =
   Ok ms ->
   exists cb w',
     createFilterFactoryFromProtoTyped proto_config stats_prefix context w =
     (Ok cb, w') /\
     forall callbacks w1,
       match factoryForGrpcService_impl manager svc (scope context) true with
       | Ok _ => exists out w1', invoke cb callbacks w1 = (Ok out, w1')
       | Throw e => exists w1', invoke cb callbacks w1 = (Throw e, w1')
       end).
Proof.
  intros manager svc. split; [|split].
  - intros Hbranch cb w' Hload callbacks w1.
    destruct (load_cases _ _ _ _ _ _ Hload)
      as [(_ & cc & ->) | [(_ & _ & h & t & ->) | (Hh & Hg & _)]].
    + rewrite invoke_raw_http. eauto.
    + rewrite invoke_google_grpc. eauto.
    + destruct Hbranch; subst svc; congruence.
  - intros Hhttp Hgoogle Halpha Hmiss ms e Hms Hfail.
    unfold createFilterFactoryFromProtoTyped. unfold_effects. simpl.
    subst manager svc. rewrite Hhttp, Hgoogle, Halpha. simpl.
    rewrite Hms. simpl. rewrite Hmiss. simpl. rewrite Hfail. simpl. eauto.
  - intros Hhttp Hgoogle ms Hms. do 2 eexists.
    rewrite load_generic_grpc by assumption. subst svc. rewrite Hms.
    split; [reflexivity|].
    intros callbacks w1. rewrite invoke_generic_grpc. subst manager.
    destruct (factoryForGrpcService_impl _ _ _ _); eauto.
Qed.

(** C5, as amended: the timeout is resolved once, when the block is loaded,
    and stored in an unsigned 32-bit integer.  With the field absent it is
    [DefaultTimeout]; with the field present it is the field's millisecond
    value reduced modulo 2^32, hence exactly that value whenever it lies
    in [0, 2^32).  The raw-HTTP branch reads [http_service.server_uri],
    both gRPC branches read [grpc_service].  Every client a callback
    constructs carries the captured value: nothing is resolved again when
    the callback runs. *)
Theorem timeout_resolved_once_mod_2_32 proto_config stats_prefix context w
  cb w' :
  (0 <= DefaultTimeout < 2 ^ 32)%Z ->
  createFilterFactoryFromProtoTyped proto_config stats_prefix context w =
  (Ok cb, w') ->
  match spec_timeout_field proto_config with
  | None => cb_timeout_ms cb = DefaultTimeout
  | Some d =>
      durationToMilliseconds d = Ok (milliseconds_of d) /\
      cb_timeout_ms cb = (milliseconds_of d mod 2 ^ 32)%Z /\
      ((0 <= milliseconds_of d < 2 ^ 32)%Z ->
       cb_timeout_ms cb = milliseconds_of d)
  end /\
  forall callbacks w1 out w1',
    invoke cb callbacks w1 = (Ok out, w1') ->
    exists f,
      out = callbacks ++ [f] /\
      client_timeout (filter_client f) = cb_timeout_ms cb.
Proof.
  intros Hdefault Hload.
  assert (Hresolved :
            exists ms,
              PROTOBUF_GET_MS_OR_DEFAULT (spec_timeout_field proto_config)
                DefaultTimeout = Ok ms /\
              cb_timeout_ms cb = uint32_t ms).
  { unfold spec_timeout_field.
    destruct (ExtAuthz.has_http_service proto_config) eqn:Hhttp.
    - rewrite load_raw_http in Hload by assumption.
      destruct (PROTOBUF_GET_MS_OR_DEFAULT _ _) as [ms|]; inversion Hload.
      exists ms. split; reflexivity.
    - destruct (GrpcService.has_google_grpc
                  (ExtAuthz.grpc_service proto_config)) eqn:Hgoogle.
      + destruct (load_google_grpc _ _ _ _ _ _ Hhttp Hgoogle Hload)
          as (h & ms & -> & Hms & _).
        exists ms. split; [exact Hms | reflexivity].
      + rewrite load_generic_grpc in Hload by assumption.
        destruct (PROTOBUF_GET_MS_OR_DEFAULT _ _) as [ms|]; inversion Hload.
        exists ms. split; reflexivity. }
  destruct Hresolved as (ms & Hms & Hcaptured).
  split.
  - rewrite Hcaptured. unfold uint32_t.
    unfold PROTOBUF_GET_MS_OR_DEFAULT, durationToMilliseconds in *.
    destruct (spec_timeout_field proto_config) as [d|].
    + destruct (duration_well_formed d); [|discriminate].
      inversion Hms; subst ms.
      split; [reflexivity|]. split; [reflexivity|].
      intros Hrange. apply Z.mod_small. exact Hrange.
    + inversion Hms; subst ms. apply Z.mod_small. exact Hdefault.
  - intros callbacks w1 out w1' Hrun. destruct cb.
    + rewrite invoke_raw_http in Hrun. inversion Hrun.
      eexists. split; reflexivity.
    + rewrite invoke_google_grpc in Hrun. inversion Hrun.
      eexists. split; reflexivity.
    + apply invoke_generic_grpc_ok in Hrun. destruct Hrun as (-> & _).
      eexists. split; reflexivity.
Qed.

(** C6: on the generic gRPC branch loading does not touch the client
    cache, and neither does any run of a callback; every run asks the
    connection manager once, and a run that completes installs a filter
    owning a client, and an underlying connection, allocated during that
    very run.
    Hence two completed runs, of one callback or of the callbacks of two
    blocks (with equal descriptors or not), yield distinct client
    objects. *)
Theorem dedicated_clients_fresh_and_distinct
  proto_config1 proto_config2 stats_prefix1 stats_prefix2 context1 context2
  wa wb cb1 cb2 wa' wb' callbacks1 callbacks2 w1 w2 out1 out2 w1' w2' :
  ExtAuthz.has_http_service proto_config1 = false ->
  GrpcService.has_google_grpc (ExtAuthz.grpc_service proto_config1) = false ->
  ExtAuthz.has_http_service proto_config2 = false ->
  GrpcService.has_google_grpc (ExtAuthz.grpc_service proto_config2) = false ->
  createFilterFactoryFromProtoTyped proto_config1 stats_prefix1 context1 wa =
  (Ok cb1, wa') ->
  createFilterFactoryFromProtoTyped proto_config2 stats_prefix2 context2 wb =
  (Ok cb2, wb') ->
  invoke cb1 callbacks1 w1 = (Ok out1, w1') ->
  steps w1' w2 ->
  invoke cb2 callbacks2 w2 = (Ok out2, w2') ->
  exists f1 f2 id1 id2 conn1 conn2 t1 t2 v1 v2,
    out1 = callbacks1 ++ [f1] /\
    out2 = callbacks2 ++ [f2] /\
    filter_client f1 = GrpcClientImpl id1 (OwnedAsyncClient conn1) t1 v1 /\
    filter_client f2 = GrpcClientImpl id2 (OwnedAsyncClient conn2) t2 v2 /\
    next_object w1 <= conn1 < id1 /\ id1 < next_object w1' /\
    next_object w2 <= conn2 < id2 /\ id2 < next_object w2' /\
    id1 <> id2 /\ conn1 <> conn2 /\
    factory_calls w1' = S (factory_calls w1) /\
    factory_calls w2' = S (factory_calls w2) /\
    async_clients_ wa' = async_clients_ wa /\
    cache_lookups wa' = cache_lookups wa /\
    async_clients_ wb' = async_clients_ wb /\
    cache_lookups wb' = cache_lookups wb /\
    async_clients_ w1' = async_clients_ w1 /\
    cache_lookups w1' = cache_lookups w1 /\
    async_clients_ w2' = async_clients_ w2 /\
    cache_lookups w2' = cache_lookups w2 /\
    (forall callbacks w r w',
        invoke cb1 callbacks w = (r, w') ->
        factory_calls w' = S (factory_calls w) /\
        async_clients_ w' = async_clients_ w /\
        cache_lookups w' = cache_lookups w).
Proof.
  intros Hhttp1 Hgoogle1 Hhttp2 Hgoogle2 Hload1 Hload2 Hrun1 Hsteps Hrun2.
  rewrite load_generic_grpc in Hload1 by assumption.
  rewrite load_generic_grpc in Hload2 by assumption.
  destruct (PROTOBUF_GET_MS_OR_DEFAULT
              (GrpcService.timeout (ExtAuthz.grpc_service proto_config1)) _);
    [|discriminate].
  destruct (PROTOBUF_GET_MS_OR_DEFAULT
              (GrpcService.timeout (ExtAuthz.grpc_service proto_config2)) _);
    [|discriminate].
  inversion Hload1; subst cb1 wa'; clear Hload1.
  inversion Hload2; subst cb2 wb'; clear Hload2.
  apply invoke_generic_grpc_ok in Hrun1. destruct Hrun1 as (-> & ->).
  apply invoke_generic_grpc_ok in Hrun2. destruct Hrun2 as (-> & ->).
  apply steps_next_object in Hsteps. simpl in Hsteps.
  do 10 eexists.
  do 4 (split; [reflexivity|]).
  unfold factory_calls, cache_lookups.
  repeat (split; [simpl; first [reflexivity | lia]|]).
  intros callbacks w r w'. rewrite invoke_generic_grpc.
  destruct (factoryForGrpcService_impl _ _ _ _); intros Heq;
    inversion Heq; simpl; auto.
Qed.

(** C7, as amended: what a block captures once, at load time, is its
    [FilterConfig] (and the inputs of the client: no client is constructed
    while the block is loaded).  The client itself is constructed anew by
    every run of the callback: a run that completes has constructed
    exactly one client, allocated during that run, and hands it to the
    filter it installs together with the captured [FilterConfig]. *)
Theorem client_constructed_per_callback_run proto_config stats_prefix
  context w cb w' :
  createFilterFactoryFromProtoTyped proto_config stats_prefix context w =
  (Ok cb, w') ->
  clients_constructed w' = clients_constructed w /\
  fc_id (cb_filter_config cb) = next_object w /\
  fc_proto_config (cb_filter_config cb) = proto_config /\
  forall callbacks w1 out w1',
    invoke cb callbacks w1 = (Ok out, w1') ->
    exists f,
      out = callbacks ++ [f] /\
      filter_config f = cb_filter_config cb /\
      clients_constructed w1' = S (clients_constructed w1) /\
      next_object w1 <= client_id (filter_client f) < next_object w1'.
Proof.
  intros Hload.
  assert (Hnone : clients_constructed w' = clients_constructed w).
  { destruct (ExtAuthz.has_http_service proto_config) eqn:Hhttp.
    - rewrite load_raw_http in Hload by assumption.
      destruct (PROTOBUF_GET_MS_OR_DEFAULT _ _); inversion Hload.
      reflexivity.
    - destruct (GrpcService.has_google_grpc
                  (ExtAuthz.grpc_service proto_config)) eqn:Hgoogle.
      + destruct (load_google_grpc _ _ _ _ _ _ Hhttp Hgoogle Hload)
          as (h & ms & _ & _ & _ & _ & _ & Hclients & _).
        exact Hclients.
      + rewrite load_generic_grpc in Hload by assumption.
        destruct (PROTOBUF_GET_MS_OR_DEFAULT _ _); inversion Hload.
        reflexivity. }
  split; [exact Hnone|].
  destruct (load_cases _ _ _ _ _ _ Hload)
    as [(_ & cc & ->) | [(_ & _ & h & t & ->) | (_ & _ & t & ->)]];
    (split; [reflexivity|]); (split; [reflexivity|]);
    intros callbacks w1 out w1' Hrun.
  - rewrite invoke_raw_http in Hrun. inversion Hrun.
    eexists. do 2 (split; [reflexivity|]).
    unfold clients_constructed. simpl. split; [reflexivity | lia].
  - rewrite invoke_google_grpc in Hrun. inversion Hrun.
    eexists. do 2 (split; [reflexivity|]).
    unfold clients_constructed. simpl. split; [reflexivity | lia].
  - apply invoke_generic_grpc_ok in Hrun. destruct Hrun as (-> & ->).
    eexists. do 2 (split; [reflexivity|]).
    unfold clients_constructed. simpl. split; [reflexivity | lia].
Qed.

(** ** Further properties of the factory and of its callbacks *)

(** A run that completes appended one filter, holding the captured
    [FilterConfig] and a client allocated during the run. *)
Lemma invoke_ok_shape cb callbacks w out w' :
  invoke cb callbacks w = (Ok out, w') ->
  exists f,
    out = callbacks ++ [f] /\
    filter_config f = cb_filter_config cb /\
    next_object w <= client_id (filter_client f) < next_object w' /\
    client_timeout (filter_client f) = cb_timeout_ms cb.
Proof.
  intros Hrun. destruct cb.
  - rewrite invoke_raw_http in Hrun. inversion Hrun.
    eexists. do 2 (split; [reflexivity|]). simpl. split; [lia|reflexivity].
  - rewrite invoke_google_grpc in Hrun. inversion Hrun.
    eexists. do 2 (split; [reflexivity|]). simpl. split; [lia|reflexivity].
  - apply invoke_generic_grpc_ok in Hrun. destruct Hrun as (-> & ->).
    eexists. do 2 (split; [reflexivity|]). simpl. split; [lia|reflexivity].
Qed.

(** X1: the timeout a loaded block has captured always fits an unsigned
    32-bit integer, whatever the configured duration and the default, and
    so does the timeout of every client its callback constructs. *)
Theorem resolved_timeout_fits_32_bits proto_config stats_prefix context w
  cb w' :
  createFilterFactoryFromProtoTyped proto_config stats_prefix context w =
  (Ok cb, w') ->
  (0 <= cb_timeout_ms cb < 2 ^ 32)%Z /\
  forall callbacks w1 out w1',
    invoke cb callbacks w1 = (Ok out, w1') ->
    exists f,
      out = callbacks ++ [f] /\
      (0 <= client_timeout (filter_client f) < 2 ^ 32)%Z.
Proof.
  intros Hload.
  assert (Hrange : (0 <= cb_timeout_ms cb < 2 ^ 32)%Z).
  { destruct (ExtAuthz.has_http_service proto_config) eqn:Hhttp.
    - rewrite load_raw_http in Hload by assumption.
      destruct (PROTOBUF_GET_MS_OR_DEFAULT _ _); inversion Hload.
      simpl. unfold uint32_t. apply Z.mod_pos_bound. lia.
    - destruct (GrpcService.has_google_grpc
                  (ExtAuthz.grpc_service proto_config)) eqn:Hgoogle.
      + destruct (load_google_grpc _ _ _ _ _ _ Hhttp Hgoogle Hload)
          as (h & ms & -> & _).
        simpl. unfold uint32_t. apply Z.mod_pos_bound. lia.
      + rewrite load_generic_grpc in Hload by assumption.
        destruct (PROTOBUF_GET_MS_OR_DEFAULT _ _); inversion Hload.
        simpl. unfold uint32_t. apply Z.mod_pos_bound. lia. }
  split; [exact Hrange|].
  intros callbacks w1 out w1' Hrun.
  destruct (invoke_ok_shape _ _ _ _ _ Hrun) as (f & -> & _ & _ & Htimeout).
  exists f. split; [reflexivity|]. rewrite Htimeout. exact Hrange.
Qed.

(** X3: the only run of a callback that can throw is a run of a
    generic-gRPC callback whose connection manager refused the captured
    descriptor; the exception is the manager's, and the run has allocated
    nothing, constructed no client and left the cache alone: all it did
    was the call on the manager. *)
Theorem failed_run_constructs_nothing cb callbacks w e w' :
  invoke cb callbacks w = (Throw e, w') ->
  exists svc context filter_config timeout_ms version use_alpha,
    cb = GrpcCb svc context filter_config timeout_ms version use_alpha /\
    factoryForGrpcService_impl
      (grpcAsyncClientManager (clusterManager context)) svc (scope context)
      true = Throw e /\
    next_object w' = next_object w /\
    clients_constructed w' = clients_constructed w /\
    async_clients_ w' = async_clients_ w /\
    trace w' = EvFactoryForGrpcService svc :: trace w.
Proof.
  intros Hrun. destruct cb.
  - rewrite invoke_raw_http in Hrun. discriminate.
  - rewrite invoke_google_grpc in Hrun. discriminate.
  - rewrite invoke_generic_grpc in Hrun.
    destruct (factoryForGrpcService_impl _ _ _ _) as [|e0] eqn:Himpl;
      [discriminate|].
    inversion Hrun; subst. do 6 eexists.
    split; [reflexivity|]. split; [exact Himpl|].
    repeat split; reflexivity.
Qed.

(** X4: no run of a callback looks the client cache up or changes it,
    succeed or fail; and a run calls the connection manager exactly once
    when the callback is the generic-gRPC one, and never otherwise. *)
Theorem callback_runs_leave_cache_alone cb callbacks w :
  let w' := snd (invoke cb callbacks w) in
  async_clients_ w' = async_clients_ w /\
  cache_lookups w' = cache_lookups w /\
  factory_calls w' = factory_calls w + manager_calls_per_run cb.
Proof.
  unfold cache_lookups, factory_calls. destruct cb.
  - rewrite invoke_raw_http. simpl. repeat split; lia.
  - rewrite invoke_google_grpc. simpl. repeat split; lia.
  - rewrite invoke_generic_grpc.
    destruct (factoryForGrpcService_impl _ _ _ _); simpl;
      repeat split; lia.
Qed.

(** X6: every load constructs a [FilterConfig] of its own: two blocks
    loaded one after the other in a run, equal or not, capture
    [FilterConfig] objects with different identities, the later one the
    younger. *)
Theorem each_load_has_its_own_filter_config
  proto_config1 proto_config2 stats_prefix1 stats_prefix2 context1 context2
  w cb1 w1 w2 cb2 w3 :
  createFilterFactoryFromProtoTyped proto_config1 stats_prefix1 context1 w =
  (Ok cb1, w1) ->
  steps w1 w2 ->
  createFilterFactoryFromProtoTyped proto_config2 stats_prefix2 context2 w2 =
  (Ok cb2, w3) ->
  fc_id (cb_filter_config cb1) < fc_id (cb_filter_config cb2) /\
  cb_filter_config cb1 <> cb_filter_config cb2.
Proof.
  intros Hload1 Hsteps Hload2.
  assert (Hid1 : fc_id (cb_filter_config cb1) = next_object w).
  { destruct (load_cases _ _ _ _ _ _ Hload1)
      as [(_ & cc & ->) | [(_ & _ & h & t & ->) | (_ & _ & t & ->)]];
      reflexivity. }
  assert (Hid2 : fc_id (cb_filter_config cb2) = next_object w2).
  { destruct (load_cases _ _ _ _ _ _ Hload2)
      as [(_ & cc & ->) | [(_ & _ & h & t & ->) | (_ & _ & t & ->)]];
      reflexivity. }
  pose proof (load_next_object proto_config1 stats_prefix1 context1 w)
    as Hgrow.
  rewrite Hload1 in Hgrow. simpl in Hgrow.
  apply steps_next_object in Hsteps.
  assert (Hlt : fc_id (cb_filter_config cb1) < fc_id (cb_filter_config cb2))
    by lia.
  split; [exact Hlt|].
  intros Heq. rewrite Heq in Hlt. lia.
Qed.

(** X7: callbacks compose.  When the callbacks of several blocks run in
    turn on one callbacks object and none throws, the filters already
    there are kept, one filter per callback is appended in the callbacks'
    order, each holding the [FilterConfig] its callback captured, and the
    clients of the new filters are pairwise distinct objects allocated
    during the run. *)
Theorem invoke_each_appends_one_filter_per_callback factories :
  forall callbacks w out w',
    invoke_each factories callbacks w = (Ok out, w') ->
    exists added,
      out = callbacks ++ added /\
      map filter_config added = map cb_filter_config factories /\
      NoDup (map (fun f => client_id (filter_client f)) added) /\
      Forall (fun f => next_object w <= client_id (filter_client f)
                       < next_object w') added /\
      next_object w <= next_object w'.
Proof.
  induction factories as [|cb rest IH]; intros callbacks w out w' Hrun.
  - inversion Hrun; subst. exists []. rewrite app_nil_r.
    repeat split; constructor.
  - simpl in Hrun. unfold bind in Hrun.
    destruct (invoke cb callbacks w) as [[mid|e] w1] eqn:Hfirst;
      [|discriminate].
    destruct (invoke_ok_shape _ _ _ _ _ Hfirst)
      as (f & -> & Hconfig & Hfresh & _).
    destruct (IH _ _ _ _ Hrun)
      as (added & -> & Hconfigs & Hnodup & Hrange & Hgrow).
    exists (f :: added). rewrite <- app_assoc. simpl.
    split; [reflexivity|]. split; [congruence|]. split; [|split].
    + apply NoDup_cons; [|exact Hnodup].
      rewrite in_map_iff. intros (g & Hsame & Hin).
      rewrite Forall_forall in Hrange. apply Hrange in Hin. lia.
    + apply Forall_cons; [lia|].
      eapply Forall_impl; [|exact Hrange]. simpl. intros g Hg. lia.
    + lia.
Qed.

(** X8: every call of [createRouteSpecificFilterConfigTyped] constructs a
    new object: two per-route objects built one after the other in a run
    have different identities, also when built from the same fragment. *)
Theorem each_route_config_is_a_new_object
  (proto_config1 proto_config2 : ExtAuthzPerRoute)
  (context1 context2 : ServerFactoryContext)
  (visitor1 visitor2 : ValidationVisitor) w r1 w1 w2 r2 w3 :
  createRouteSpecificFilterConfigTyped proto_config1 context1 visitor1 w =
  (Ok r1, w1) ->
  steps w1 w2 ->
  createRouteSpecificFilterConfigTyped proto_config2 context2 visitor2 w2 =
  (Ok r2, w3) ->
  pr_id r1 < pr_id r2 /\ r1 <> r2.
Proof.
  intros Hfirst Hsteps Hsecond.
  inversion Hfirst; subst; clear Hfirst.
  inversion Hsecond; subst; clear Hsecond.
  apply steps_next_object in Hsteps. simpl in *.
  split; [lia|].
  intros Heq. apply (f_equal pr_id) in Heq. simpl in Heq. lia.
Qed.

End Factory.

(** * The claims at sample inputs *)

Module Instances.
Import Sample.

(** C1, the claim as written fails: a raw-HTTP block with [use_alpha] set
    is loaded, and the callback is returned. *)
Lemma use_alpha_ignored_on_raw_http :
  ExtAuthz.hidden_envoy_deprecated_use_alpha cfg_http_use_alpha = true /\
  createFilterFactoryFromProtoTyped sample_default cfg_http_use_alpha
    "ext_authz." context_ok world0 =
  (Ok (RawHttpCb
         (mkFilterConfig 0 cfg_http_use_alpha "local" "scope" "runtime"
            "http" "ext_authz.")
         (mkClientConfig 1 cfg_http_use_alpha 250 "/auth")
         context_ok),
   mkWorld 2 [] [] []).
Proof. split; reflexivity. Qed.

Lemma use_alpha_rejected_on_google_grpc_witness :
  ExtAuthz.has_http_service cfg_google_use_alpha = false /\
  GrpcService.has_google_grpc (ExtAuthz.grpc_service cfg_google_use_alpha) =
  true /\
  ExtAuthz.hidden_envoy_deprecated_use_alpha cfg_google_use_alpha = true /\
  exists w',
    createFilterFactoryFromProtoTyped sample_default cfg_google_use_alpha
      "ext_authz." context_ok world0 =
    (Throw (EnvoyException
              "The use_alpha field is deprecated and is no longer supported."),
     w') /\
    async_clients_ w' = async_clients_ world0 /\
    trace w' = trace world0.
Proof.
  repeat (split; [reflexivity|]).
  apply (use_alpha_rejected_on_google_grpc sample_default); reflexivity.
Defined.

Lemma http_service_takes_priority_witness :
  ExtAuthz.has_grpc_service cfg_http_and_grpc = true /\
  (exists filter_config client_config w',
      createFilterFactoryFromProtoTyped sample_default cfg_http_and_grpc
        "ext_authz." context_ok world0 =
      (Ok (RawHttpCb filter_config client_config context_ok), w') /\
      cc_timeout client_config = 250%Z /\
      cc_path_prefix client_config = "/auth" /\
      async_clients_ w' = async_clients_ world0) /\
  (exists w',
      createFilterFactoryFromProtoTyped sample_default cfg_http_negative
        "ext_authz." context_ok world0 =
      (Throw (EnvoyException "malformed timeout value"), w') /\
      trace w' = trace world0).
Proof.
  split; [reflexivity|]. split.
  - destruct (http_service_takes_priority sample_default
                (Some google_service) (http_target (Some ms250)) V3 false
                "ext_authz." context_ok world0)
      as (fc & cc & w' & Hload & Htimeout & Hprefix & Hcache & _).
    exists fc, cc, w'. split; [exact Hload|]. split; [exact Htimeout|].
    split; [exact Hprefix | exact Hcache].
  - destruct (http_service_takes_priority sample_default
                (Some google_service)
                (http_target (Some (Duration.mk (-5) 0))) V3 false
                "ext_authz." context_ok world0)
      as (w' & Hload & _ & Htrace).
    exists w'. split; [exact Hload | exact Htrace].
Defined.

Lemma shared_cache_handle_captured_once_witness :
  ExtAuthz.has_http_service cfg_google = false /\
  GrpcService.has_google_grpc (ExtAuthz.grpc_service cfg_google) = true /\
  exists cb w',
    createFilterFactoryFromProtoTyped sample_default cfg_google "ext_authz."
      context_ok world0 = (Ok cb, w') /\
    exists h filter_config timeout_ms version,
      cb = GoogleGrpcCb h filter_config timeout_ms cfg_google version /\
      cache_lookups w' = S (cache_lookups world0) /\
      cache_find (ExtAuthz.grpc_service cfg_google) (async_clients_ w') =
      Some h /\
      (forall callbacks w1,
        exists id f w1',
          invoke cb callbacks w1 = (Ok (callbacks ++ [f]), w1') /\
          filter_client f =
          GrpcClientImpl id (CachedAsyncClient h) timeout_ms version /\
          cache_lookups w1' = cache_lookups w1 /\
          async_clients_ w1' = async_clients_ w1) /\
      (forall proto_config2 stats_prefix2 context2 w2 cb2 w2',
          steps sample_default unit unit unit w' w2 ->
          ExtAuthz.has_http_service proto_config2 = false ->
          ExtAuthz.grpc_service proto_config2 =
          ExtAuthz.grpc_service cfg_google ->
          createFilterFactoryFromProtoTyped sample_default proto_config2
            stats_prefix2 context2 w2 = (Ok cb2, w2') ->
          exists filter_config2 timeout_ms2 version2,
            cb2 = GoogleGrpcCb h filter_config2 timeout_ms2 proto_config2
                    version2 /\
            async_clients_ w2' = async_clients_ w2).
Proof.
  do 2 (split; [reflexivity|]).
  do 2 eexists. split; [vm_compute; reflexivity|].
  apply (shared_cache_handle_captured_once sample_default unit unit unit
           cfg_google "ext_authz." context_ok world0); reflexivity.
Defined.

(** C4, the claim as written fails: a generic-gRPC block is loaded although
    the connection manager cannot serve its descriptor; the failure shows
    only when the callback runs. *)
Lemma generic_grpc_failure_deferred_to_callback :
  exists cb w',
    createFilterFactoryFromProtoTyped sample_default cfg_envoy_grpc
      "ext_authz." context_failing world0 = (Ok cb, w') /\
    invoke cb [] w' =
    (Throw (EnvoyException "unknown cluster"),
     mkWorld 1 [] [] [EvFactoryForGrpcService envoy_service]).
Proof. do 2 eexists. split; vm_compute; reflexivity. Qed.

Lemma construction_errors_by_branch_witness :
  (exists cb w',
      createFilterFactoryFromProtoTyped sample_default cfg_envoy_grpc
        "ext_authz." context_failing world0 = (Ok cb, w') /\
      forall callbacks w1,
      exists w1',
        invoke cb callbacks w1 =
        (Throw (EnvoyException "unknown cluster"), w1')) /\
  (exists w',
      createFilterFactoryFromProtoTyped sample_default cfg_google
        "ext_authz." context_failing world0 =
      (Throw (EnvoyException "unknown cluster"), w')).
Proof.
  split.
  - destruct (construction_errors_by_branch sample_default cfg_envoy_grpc
                "ext_authz." context_failing world0) as (_ & _ & Hgeneric).
    eapply Hgeneric; reflexivity.
  - destruct (construction_errors_by_branch sample_default cfg_google
                "ext_authz." context_failing world0) as (_ & Hshared & _).
    eapply Hshared; reflexivity.
Defined.

(** C5, the claim as written fails: a timeout of 4294968 s is 4294968000 ms,
    and the callback holds 704. *)
Lemma long_timeout_is_reduced_mod_2_32 :
  spec_timeout_field cfg_http_long_timeout = Some (Duration.mk 4294968 0) /\
  durationToMilliseconds (Duration.mk 4294968 0) = Ok 4294968000%Z /\
  exists cb w' f w'',
    createFilterFactoryFromProtoTyped sample_default cfg_http_long_timeout
      "ext_authz." context_ok world0 = (Ok cb, w') /\
    cb_timeout_ms cb = 704%Z /\
    invoke cb [] w' = (Ok [f], w'') /\
    client_timeout (filter_client f) = 704%Z.
Proof.
  do 2 (split; [reflexivity|]).
  do 4 eexists. repeat split; vm_compute; reflexivity.
Qed.

Lemma timeout_resolved_once_mod_2_32_witness :
  (0 <= sample_default < 2 ^ 32)%Z /\
  exists cb w',
    createFilterFactoryFromProtoTyped sample_default cfg_http_and_grpc
      "ext_authz." context_ok world0 = (Ok cb, w') /\
    cb_timeout_ms cb = 250%Z /\
    forall callbacks w1 out w1',
      invoke cb callbacks w1 = (Ok out, w1') ->
      exists f,
        out = callbacks ++ [f] /\
        client_timeout (filter_client f) = cb_timeout_ms cb.
Proof.
  assert (Hdefault : (0 <= sample_default < 2 ^ 32)%Z)
    by (unfold sample_default; lia).
  split; [exact Hdefault|].
  do 2 eexists. split; [vm_compute; reflexivity|].
  destruct (timeout_resolved_once_mod_2_32 sample_default cfg_http_and_grpc
              "ext_authz." context_ok world0 _ _ Hdefault eq_refl)
    as ((_ & Hmod & _) & Honce).
  split; [exact Hmod | exact Honce].
Defined.

Lemma dedicated_clients_fresh_and_distinct_witness :
  ExtAuthz.has_http_service cfg_envoy_grpc = false /\
  GrpcService.has_google_grpc (ExtAuthz.grpc_service cfg_envoy_grpc) =
  false /\
  exists cb1 wa' cb2 wb' f1 w1' f2 w2',
    createFilterFactoryFromProtoTyped sample_default cfg_envoy_grpc "a."
      context_ok world0 = (Ok cb1, wa') /\
    createFilterFactoryFromProtoTyped sample_default cfg_envoy_grpc "b."
      context_ok wa' = (Ok cb2, wb') /\
    invoke cb1 [] wb' = (Ok [f1], w1') /\
    steps sample_default unit unit unit w1' w1' /\
    invoke cb2 [] w1' = (Ok [f2], w2') /\
    client_id (filter_client f1) <> client_id (filter_client f2) /\
    async_clients_ w2' = async_clients_ world0 /\
    cache_lookups w2' = 0.
Proof.
  do 2 (split; [reflexivity|]).
  let ra := eval vm_compute in
      (createFilterFactoryFromProtoTyped sample_default cfg_envoy_grpc "a."
         context_ok world0) in
  lazymatch ra with
  | (Ok ?cb1, ?wa') =>
      let rb := eval vm_compute in
          (createFilterFactoryFromProtoTyped sample_default cfg_envoy_grpc
             "b." context_ok wa') in
      lazymatch rb with
      | (Ok ?cb2, ?wb') =>
          let r1 := eval vm_compute in (invoke cb1 [] wb') in
          lazymatch r1 with
          | (Ok [?f1], ?w1') =>
              let r2 := eval vm_compute in (invoke cb2 [] w1') in
              lazymatch r2 with
              | (Ok [?f2], ?w2') =>
                  exists cb1, wa', cb2, wb', f1, w1', f2, w2';
                  destruct (dedicated_clients_fresh_and_distinct
                              sample_default unit unit unit cfg_envoy_grpc
                              cfg_envoy_grpc "a." "b." context_ok context_ok
                              world0 wa' cb1 cb2 wa' wb' [] [] wb' w1' [f1]
                              [f2] w1' w2' eq_refl eq_refl eq_refl eq_refl
                              eq_refl eq_refl eq_refl (rt1n_refl _ _ _)
                              eq_refl)
                    as (g1 & g2 & id1 & id2 & c1 & c2 & t1 & t2 & v1 & v2 &
                        Hout1 & Hout2 & Hclient1 & Hclient2 & _ & _ & _ &
                        _ & Hdistinct & _)
              end
          end
      end
  end.
  apply (app_inj_tail []) in Hout1. destruct Hout1 as (_ & Hf1).
  apply (app_inj_tail []) in Hout2. destruct Hout2 as (_ & Hf2).
  do 3 (split; [reflexivity|]).
  split; [apply rt1n_refl|].
  split; [reflexivity|].
  rewrite Hf1, Hf2, Hclient1, Hclient2.
  split; [exact Hdistinct|]. split; reflexivity.
Defined.

(** C7, the claim as written fails: nothing is constructed while the block
    is loaded, and two runs of its callback construct two clients, the
    objects 2 and 4. *)
Lemma each_callback_run_constructs_a_client :
  exists cb w1 f1 w2 f2 w3,
    createFilterFactoryFromProtoTyped sample_default cfg_http_and_grpc
      "ext_authz." context_ok world0 = (Ok cb, w1) /\
    clients_constructed w1 = 0 /\
    invoke cb [] w1 = (Ok [f1], w2) /\
    invoke cb [] w2 = (Ok [f2], w3) /\
    client_id (filter_client f1) = 2 /\
    client_id (filter_client f2) = 4 /\
    clients_constructed w3 = 2.
Proof. do 6 eexists. repeat split; vm_compute; reflexivity. Qed.

Lemma client_constructed_per_callback_run_witness :
  exists cb w',
    createFilterFactoryFromProtoTyped sample_default cfg_google "ext_authz."
      context_ok world0 = (Ok cb, w') /\
    clients_constructed w' = clients_constructed world0 /\
    fc_id (cb_filter_config cb) = next_object world0 /\
    fc_proto_config (cb_filter_config cb) = cfg_google /\
    forall callbacks w1 out w1',
      invoke cb callbacks w1 = (Ok out, w1') ->
      exists f,
        out = callbacks ++ [f] /\
        filter_config f = cb_filter_config cb /\
        clients_constructed w1' = S (clients_constructed w1) /\
        next_object w1 <= client_id (filter_client f) < next_object w1'.
Proof.
  do 2 eexists. split; [vm_compute; reflexivity|].
  apply (client_constructed_per_callback_run sample_default cfg_google
           "ext_authz." context_ok world0).
  reflexivity.
Defined.

Lemma transport_api_version_verbatim_witness :
  ExtAuthz.has_http_service cfg_envoy_grpc = false /\
  exists cb w' out w1',
    createFilterFactoryFromProtoTyped sample_default cfg_envoy_grpc
      "ext_authz." context_ok world0 = (Ok cb, w') /\
    invoke cb [] w' = (Ok out, w1') /\
    exists f id async_client timeout,
      out = [] ++ [f] /\
      filter_client f = GrpcClientImpl id async_client timeout V2.
Proof.
  split; [reflexivity|].
  let r := eval vm_compute in
      (createFilterFactoryFromProtoTyped sample_default cfg_envoy_grpc
         "ext_authz." context_ok world0) in
  lazymatch r with
  | (Ok ?cb, ?w') =>
      let r1 := eval vm_compute in (invoke cb [] w') in
      lazymatch r1 with
      | (Ok ?out, ?w1') =>
          exists cb, w', out, w1';
          do 2 (split; [reflexivity|]);
          apply (transport_api_version_verbatim sample_default
                   cfg_envoy_grpc "ext_authz." context_ok world0 cb w' []
                   w' out w1' eq_refl eq_refl eq_refl)
      end
  end.
Defined.

Lemma generic_grpc_always_loads_witness :
  ExtAuthz.has_grpc_service cfg_empty = false /\
  ExtAuthz.has_http_service cfg_empty = false /\
  GrpcService.has_google_grpc (ExtAuthz.grpc_service cfg_empty) = false /\
  (exists filter_config w',
      createFilterFactoryFromProtoTyped sample_default cfg_empty
        "ext_authz." context_failing world0 =
      (Ok (GrpcCb GrpcService.default_instance context_failing filter_config
             (uint32_t sample_default) AUTO false),
       w')) /\
  (exists filter_config w',
      createFilterFactoryFromProtoTyped sample_default cfg_envoy_grpc
        "ext_authz." context_failing world0 =
      (Ok (GrpcCb envoy_service context_failing filter_config
             (uint32_t sample_default) V2 false),
       w')) /\
  (exists w',
      createFilterFactoryFromProtoTyped sample_default cfg_grpc_negative
        "ext_authz." context_failing world0 =
      (Throw (EnvoyException "malformed timeout value"), w')).
Proof.
  do 3 (split; [reflexivity|]).
  split; [|split].
  - destruct (generic_grpc_always_loads sample_default cfg_empty
                "ext_authz." context_failing world0 eq_refl eq_refl)
      as (_ & Hnone).
    exact (Hnone eq_refl).
  - destruct (generic_grpc_always_loads sample_default cfg_envoy_grpc
                "ext_authz." context_failing world0 eq_refl eq_refl)
      as (Hload & _).
    exact Hload.
  - destruct (generic_grpc_always_loads sample_default cfg_grpc_negative
                "ext_authz." context_failing world0 eq_refl eq_refl)
      as (Hload & _).
    exact Hload.
Defined.

(** ** The further properties at sample inputs *)

Lemma resolved_timeout_fits_32_bits_witness :
  exists cb w',
    createFilterFactoryFromProtoTyped sample_default cfg_http_long_timeout
      "ext_authz." context_ok world0 = (Ok cb, w') /\
    (0 <= cb_timeout_ms cb < 2 ^ 32)%Z /\
    forall callbacks w1 out w1',
      invoke cb callbacks w1 = (Ok out, w1') ->
      exists f,
        out = callbacks ++ [f] /\
        (0 <= client_timeout (filter_client f) < 2 ^ 32)%Z.
Proof.
  do 2 eexists. split; [vm_compute; reflexivity|].
  eapply (resolved_timeout_fits_32_bits sample_default
            cfg_http_long_timeout "ext_authz." context_ok world0).
  vm_compute; reflexivity.
Defined.

Lemma failed_run_constructs_nothing_witness :
  exists cb w1 e w',
    createFilterFactoryFromProtoTyped sample_default cfg_empty "ext_authz."
      context_failing world0 = (Ok cb, w1) /\
    invoke cb [] w1 = (Throw e, w') /\
    next_object w' = next_object w1 /\
    clients_constructed w' = clients_constructed w1 /\
    async_clients_ w' = async_clients_ w1.
Proof.
  let r := eval vm_compute in
      (createFilterFactoryFromProtoTyped sample_default cfg_empty
         "ext_authz." context_failing world0) in
  lazymatch r with
  | (Ok ?cb, ?w1) =>
      let r1 := eval vm_compute in (invoke cb [] w1) in
      lazymatch r1 with
      | (Throw ?e, ?w') =>
          exists cb, w1, e, w';
          destruct (failed_run_constructs_nothing cb [] w1 e w' eq_refl)
            as (svc & ctx & fc & t & v & a & _ & _ & Hnext & Hclients &
                Hcache & _)
      end
  end.
  do 2 (split; [reflexivity|]).
  split; [exact Hnext|]. split; [exact Hclients | exact Hcache].
Defined.

Lemma each_load_has_its_own_filter_config_witness :
  exists cb1 w1 cb2 w2,
    createFilterFactoryFromProtoTyped sample_default cfg_google "ext_authz."
      context_ok world0 = (Ok cb1, w1) /\
    steps sample_default unit unit unit w1 w1 /\
    createFilterFactoryFromProtoTyped sample_default cfg_google "ext_authz."
      context_ok w1 = (Ok cb2, w2) /\
    fc_id (cb_filter_config cb1) < fc_id (cb_filter_config cb2) /\
    cb_filter_config cb1 <> cb_filter_config cb2.
Proof.
  let r := eval vm_compute in
      (createFilterFactoryFromProtoTyped sample_default cfg_google
         "ext_authz." context_ok world0) in
  lazymatch r with
  | (Ok ?cb1, ?w1) =>
      let r' := eval vm_compute in
          (createFilterFactoryFromProtoTyped sample_default cfg_google
             "ext_authz." context_ok w1) in
      lazymatch r' with
      | (Ok ?cb2, ?w2) =>
          exists cb1, w1, cb2, w2;
          split; [reflexivity|];
          split; [apply rt1n_refl|];
          split; [reflexivity|];
          apply (each_load_has_its_own_filter_config sample_default unit
                   unit unit cfg_google cfg_google "ext_authz." "ext_authz."
                   context_ok context_ok world0 cb1 w1 w1 cb2 w2 eq_refl
                   (rt1n_refl _ _ _) eq_refl)
      end
  end.
Defined.

Lemma invoke_each_appends_one_filter_per_callback_witness :
  exists cb1 w1 cb2 w2 out w3,
    createFilterFactoryFromProtoTyped sample_default cfg_http_and_grpc
      "ext_authz." context_ok world0 = (Ok cb1, w1) /\
    createFilterFactoryFromProtoTyped sample_default cfg_envoy_grpc
      "ext_authz." context_ok w1 = (Ok cb2, w2) /\
    invoke_each [cb1; cb2; cb1] [] w2 = (Ok out, w3) /\
    exists added,
      out = [] ++ added /\
      map filter_config added = map cb_filter_config [cb1; cb2; cb1] /\
      NoDup (map (fun f => client_id (filter_client f)) added) /\
      Forall (fun f => next_object w2 <= client_id (filter_client f)
                       < next_object w3) added /\
      next_object w2 <= next_object w3.
Proof.
  let r := eval vm_compute in
      (createFilterFactoryFromProtoTyped sample_default cfg_http_and_grpc
         "ext_authz." context_ok world0) in
  lazymatch r with
  | (Ok ?cb1, ?w1) =>
      let r' := eval vm_compute in
          (createFilterFactoryFromProtoTyped sample_default cfg_envoy_grpc
             "ext_authz." context_ok w1) in
      lazymatch r' with
      | (Ok ?cb2, ?w2) =>
          let r'' := eval vm_compute in (invoke_each [cb1; cb2; cb1] [] w2) in
          lazymatch r'' with
          | (Ok ?out, ?w3) =>
              exists cb1, w1, cb2, w2, out, w3;
              do 3 (split; [reflexivity|]);
              apply (invoke_each_appends_one_filter_per_callback
                       [cb1; cb2; cb1] [] w2 out w3 eq_refl)
          end
      end
  end.
Defined.

Lemma each_route_config_is_a_new_object_witness :
  exists r1 w1 r2 w2,
    createRouteSpecificFilterConfigTyped unit unit unit tt tt tt world0 =
    (Ok r1, w1) /\
    steps sample_default unit unit unit w1 w1 /\
    createRouteSpecificFilterConfigTyped unit unit unit tt tt tt w1 =
    (Ok r2, w2) /\
    pr_id unit r1 < pr_id unit r2 /\ r1 <> r2.
Proof.
  do 4 eexists.
  split; [vm_compute; reflexivity|].
  split; [apply rt1n_refl|].
  split; [vm_compute; reflexivity|].
  eapply (each_route_config_is_a_new_object sample_default unit unit unit
            tt tt tt tt tt tt world0);
    [reflexivity | apply rt1n_refl | reflexivity].
Defined.

End Instances.
